(** * MatMethods: the VASP result store and the Raman workflow assembler

    A shallow embedding of

    - [matmethods/vasp/database.py]  (class [MMVaspDb]), and
    - [matmethods/vasp/workflows/base/raman.py]  ([get_wf_raman_spectra]),

    followed by the properties of both that the specification states.

    The database driver (pymongo, gridfs), zlib, json, pymatgen and the
    workflow engine are external; what the code needs from them is either a
    small explicit model of the store or an interface whose members are
    parameters of the development. *)

From Stdlib Require Import ZArith QArith Lia.
From stdpp Require Import base gmap strings list fin_maps infinite.

Set Warnings "-register-all".
Close Scope Q_scope.
Open Scope Z_scope.
Open Scope nat_scope.

(* ===================================================================== *)
(** ** Python values, exceptions and results *)
(* ===================================================================== *)

Module Py.

(** The values a decoded BSON/JSON document is made of.  A document is an
    ordered list of (field, value) pairs whose lookup returns the first
    binding of a field. *)
Inductive pyval : Type :=
| VNone
| VBool (b : bool)
| VInt (z : Z)
| VStr (s : string)
| VOid (n : N)
| VList (l : list pyval)
| VDict (d : list (string * pyval)).

Definition doc : Type := list (string * pyval).

(** Raw bytes. *)
Definition bytes : Type := list Byte.byte.

(** The exceptions that the modelled code paths can raise, together with
    the three error kinds that the specification names
    ([NotFoundError], [CorruptDataError], [StorageError]). *)
Inductive pyerror : Type :=
| TypeError
| KeyError
| IndexError
| NoFile              (* gridfs.errors.NoFile *)
| CorruptGridFile     (* gridfs.errors.CorruptGridFile *)
| ZlibError           (* zlib.error *)
| ValueError          (* json.loads on malformed input *)
| DuplicateKeyError   (* pymongo.errors.DuplicateKeyError *)
| NotFoundError
| CorruptDataError
| StorageError.

Inductive result (A : Type) : Type :=
| Ok (a : A)
| Err (e : pyerror).
Arguments Ok {A} a.
Arguments Err {A} e.

Definition rbind {A B} (r : result A) (k : A -> result B) : result B :=
  match r with
  | Ok a => k a
  | Err e => Err e
  end.

(** [d[k]] on a document. *)
Fixpoint assoc (k : string) (d : doc) : option pyval :=
  match d with
  | [] => None
  | (k', v) :: d' => if String.eqb k k' then Some v else assoc k d'
  end.

(** A subscript is a string or an integer. *)
Inductive pykey : Type :=
| KStr (s : string)
| KInt (i : Z).

(** Python's sequence indexing: a negative index counts from the end. *)
Definition py_index {A} (l : list A) (i : Z) : option A :=
  if (0 <=? i)%Z then nth_error l (Z.to_nat i)
  else if (0 <=? Z.of_nat (length l) + i)%Z
       then nth_error l (Z.to_nat (Z.of_nat (length l) + i))
       else None.

Definition string_chars (s : string) : list string :=
  map (fun c => String c EmptyString) (String.list_ascii_of_string s).

(** [v[k]]: the subscript operator on a decoded value.
    [None], booleans, integers and object ids are not subscriptable;
    a dictionary has only string keys, so an integer subscript misses;
    a list or a string takes integer subscripts only. *)
Definition getitem (v : pyval) (k : pykey) : result pyval :=
  match v, k with
  | VDict d, KStr s =>
      match assoc s d with Some x => Ok x | None => Err KeyError end
  | VDict _, KInt _ => Err KeyError
  | VList l, KInt i =>
      match py_index l i with Some x => Ok x | None => Err IndexError end
  | VList _, KStr _ => Err TypeError
  | VStr s, KInt i =>
      match py_index (string_chars s) i with
      | Some c => Ok (VStr c)
      | None => Err IndexError
      end
  | VStr _, KStr _ => Err TypeError
  | _, _ => Err TypeError
  end.

End Py.
Export Py.

(* ===================================================================== *)
(** ** The document store behind [MMDb] *)
(* ===================================================================== *)

Module Store.

(** Sort order of one key of an index ([pymongo.ASCENDING] is [1],
    [pymongo.DESCENDING] is [-1]). *)
Inductive direction : Type := ASCENDING | DESCENDING.

Global Instance direction_eq_dec : EqDecision direction.
Proof. solve_decision. Defined.

(** One entry of a collection's index metadata: the ordered key pattern and
    the two options the code passes. *)
Record index_spec : Type := mkIndex {
  ix_keys : list (string * direction);
  ix_unique : bool;
  ix_background : bool
}.

Global Instance index_spec_eq_dec : EqDecision index_spec.
Proof. solve_decision. Defined.

(** The identifier of a document, the value of its [_id] field. *)
Inductive bson_id : Type :=
| IdStr (s : string)
| IdInt (z : Z)
| IdOid (n : N).

Global Instance bson_id_eq_dec : EqDecision bson_id.
Proof. solve_decision. Defined.

Definition bson_id_enc (k : bson_id) : string + Z + N :=
  match k with
  | IdStr s => inl (inl s)
  | IdInt z => inl (inr z)
  | IdOid n => inr n
  end.

Definition bson_id_dec (x : string + Z + N) : bson_id :=
  match x with
  | inl (inl s) => IdStr s
  | inl (inr z) => IdInt z
  | inr n => IdOid n
  end.

Global Instance bson_id_countable : Countable bson_id.
Proof.
  refine (inj_countable' bson_id_enc bson_id_dec _).
  intros []; reflexivity.
Defined.

Definition doc_id (d : doc) : option bson_id :=
  match assoc "_id" d with
  | Some (VStr s) => Some (IdStr s)
  | Some (VInt z) => Some (IdInt z)
  | Some (VOid n) => Some (IdOid n)
  | _ => None
  end.

(** What a blob holds: [fs.put] is handed either the text it was given or
    the bytes that [zlib.compress] made of it. *)
Inductive payload : Type :=
| PText (s : string)
| PBytes (b : bytes).

Definition payload_length (p : payload) : nat :=
  match p with
  | PText s => String.length s
  | PBytes b => length b
  end.

(** A GridFS bucket [name]: the collection [name.files] (per blob, its
    metadata, here the length) and the collection [name.chunks] (per blob,
    its content), both keyed by the blob's object id. *)
Record bucket : Type := mkBucket {
  files : gmap N nat;
  chunks : gmap N payload
}.

Definition empty_bucket : bucket := mkBucket ∅ ∅.

(** Modelled from the spec: the state that the base class [MMDb]
    (matmethods/utils/database.py, not part of the sources at hand) gives
    access to through [self.collection] and [self.db]: the Task Record
    collection with its index metadata, the Counter collection (documents
    by [_id], which the store keeps unique), the [boltztrap] collection and
    the GridFS buckets by name.  A bucket that was never written is empty. *)
Record MMDb : Type := mkDb {
  collection : list doc;
  indexes : list index_spec;
  counter : gmap bson_id doc;
  boltztrap : list doc;
  gridfs : gmap string bucket
}.

Definition get_bucket (name : string) (db : MMDb) : bucket :=
  default empty_bucket (gridfs db !! name).

Definition set_collection (c : list doc) (db : MMDb) : MMDb :=
  mkDb c (indexes db) (counter db) (boltztrap db) (gridfs db).
Definition set_indexes (ix : list index_spec) (db : MMDb) : MMDb :=
  mkDb (collection db) ix (counter db) (boltztrap db) (gridfs db).
Definition set_counter (c : gmap bson_id doc) (db : MMDb) : MMDb :=
  mkDb (collection db) (indexes db) c (boltztrap db) (gridfs db).
Definition set_boltztrap (c : list doc) (db : MMDb) : MMDb :=
  mkDb (collection db) (indexes db) (counter db) c (gridfs db).
Definition set_bucket (name : string) (b : bucket) (db : MMDb) : MMDb :=
  mkDb (collection db) (indexes db) (counter db) (boltztrap db)
       (<[name := b]> (gridfs db)).

(** *** Code that runs against the store: state and exceptions

    A method is a function from the store to a result and the store it
    leaves behind; an exception keeps the writes made before it. *)
Definition M (A : Type) : Type := MMDb -> result A * MMDb.

Definition ret {A} (a : A) : M A := fun db => (Ok a, db).

Definition bind {A B} (m : M A) (k : A -> M B) : M B :=
  fun db =>
    match m db with
    | (Ok a, db') => k a db'
    | (Err e, db') => (Err e, db')
    end.

Definition lift {A} (r : result A) : M A := fun db => (r, db).

Definition gets {A} (f : MMDb -> A) : M A := fun db => (Ok (f db), db).

Definition modify (f : MMDb -> MMDb) : M unit := fun db => (Ok tt, f db).

Declare Scope store_scope.
Delimit Scope store_scope with store.
Notation "x <- m ;; k" := (bind m (fun x => k))
  (at level 100, m at next level, right associativity) : store_scope.
Notation "m ;;; k" := (bind m (fun _ => k))
  (at level 100, right associativity) : store_scope.
Open Scope store_scope.

(** [for x in xs: body x] *)
Fixpoint for_each {A} (xs : list A) (body : A -> M unit) : M unit :=
  match xs with
  | [] => ret tt
  | x :: xs' => body x ;;; for_each xs' body
  end.

(** *** The driver calls the code makes *)

(** Modelled from the spec: [Collection.create_index] on the Task Record
    collection, with the store's create-if-absent semantics: an index that
    is already there is not created a second time. *)
Definition create_index (ix : index_spec) : M unit :=
  modify (fun db =>
    if decide (ix ∈ indexes db) then db
    else set_indexes (indexes db ++ [ix]) db).

(** [create_index(field, ...)] with a single field name: ascending. *)
Definition single_key (field : string) : list (string * direction) :=
  [(field, ASCENDING)].

(** Modelled from the spec: [Collection.find_one({"task_id": t},
    {"calcs_reversed": 1})]: the first Task Record whose [task_id] is [t],
    cut down to the fields [_id] and [calcs_reversed]; Python's [None] when
    there is none. *)
Definition has_task_id (t : Z) (d : doc) : bool :=
  match assoc "task_id" d with
  | Some (VInt z) => Z.eqb z t
  | _ => false
  end.

Definition project_calcs_reversed (d : doc) : doc :=
  List.filter (fun kv => String.eqb (fst kv) "_id" || String.eqb (fst kv) "calcs_reversed") d.

Definition find_one_task (t : Z) : M pyval :=
  gets (fun db =>
    match List.find (has_task_id t) (collection db) with
    | Some d => VDict (project_calcs_reversed d)
    | None => VNone
    end).

(** Modelled from the spec: [Collection.delete_one({"_id": k})] and
    [Collection.insert_one(d)] on the Counter collection.  Inserting a
    document whose [_id] is taken raises [DuplicateKeyError]; a document
    without [_id] gets a new object id. *)
Definition coll_oids (c : gmap bson_id doc) : gset N :=
  list_to_set (omap (fun k => match k with IdOid n => Some n | _ => None end)
                    (elements (dom c))).

Definition counter_delete_one (k : bson_id) : M unit :=
  modify (fun db => set_counter (delete k (counter db)) db).

Definition counter_insert_one (d : doc) : M unit :=
  fun db =>
    match doc_id d with
    | Some k =>
        match counter db !! k with
        | Some _ => (Err DuplicateKeyError, db)
        | None => (Ok tt, set_counter (<[k := d]> (counter db)) db)
        end
    | None =>
        let n := fresh (coll_oids (counter db)) in
        (Ok tt, set_counter (<[IdOid n := ("_id"%string, VOid n) :: d]> (counter db)) db)
    end.

(** Modelled from the spec: [gridfs.GridFS(db, name)] with [put] (store a
    blob under a new object id, in [name.files] and [name.chunks]) and
    [get(id).read()] ([NoFile] when [name.files] has no such blob). *)
Definition gridfs_put (name : string) (p : payload) : M N :=
  fun db =>
    let b := get_bucket name db in
    let n := fresh (dom (files b) ∪ dom (chunks b)) in
    (Ok n, set_bucket name
             (mkBucket (<[n := payload_length p]> (files b))
                       (<[n := p]> (chunks b))) db).

Definition gridfs_get_read (name : string) (fs_id : pyval) : M payload :=
  fun db =>
    let b := get_bucket name db in
    match fs_id with
    | VOid n =>
        match files b !! n with
        | None => (Err NoFile, db)
        | Some _ =>
            match chunks b !! n with
            | Some p => (Ok p, db)
            | None => (Err CorruptGridFile, db)
            end
        end
    | _ => (Err NoFile, db)
    end.

Definition files_delete_many (name : string) : M unit :=
  modify (fun db =>
    let b := get_bucket name db in
    set_bucket name (mkBucket ∅ (chunks b)) db).

Definition chunks_delete_many (name : string) : M unit :=
  modify (fun db =>
    let b := get_bucket name db in
    set_bucket name (mkBucket (files b) ∅) db).


(** [db'] differs from [db] at most by indexes that were added. *)
Definition index_extension (db db' : MMDb) : Prop :=
  (forall j, j ∈ indexes db -> j ∈ indexes db')
  /\ collection db' = collection db /\ counter db' = counter db
  /\ boltztrap db' = boltztrap db /\ gridfs db' = gridfs db.

End Store.
Export Store.

(* ===================================================================== *)
(** ** [matmethods/vasp/database.py]: class [MMVaspDb] *)
(* ===================================================================== *)

Module Database.

(** The library functions [insert_gridfs] and [get_band_structure] call:
    [str.encode], [zlib.compress] (with its level), [zlib.decompress]
    (which fails on what is no zlib stream) and [json.loads] (which fails
    on what is no JSON text). *)
Class Codec : Type := {
  encode : string -> bytes;
  zlib_compress : bytes -> Z -> bytes;
  zlib_decompress : bytes -> option bytes;
  json_loads : bytes -> option pyval
}.

(** What zlib promises: decompression undoes compression, at every level. *)
Class ZlibLaws (C : Codec) : Prop := {
  zlib_decompress_compress :
    forall (b : bytes) (level : Z), zlib_decompress (zlib_compress b level) = Some b
}.

(** pymatgen's two band structure classes: [from_dict] rebuilds an object
    from the decoded dictionary, or raises (a [KeyError] on a dictionary
    that lacks a field the class needs, for instance). *)
Class BandStructures : Type := {
  band_structure : Type;
  BandStructure_from_dict : pyval -> result band_structure;
  BandStructureSymmLine_from_dict : pyval -> result band_structure
}.

(** [_indices = indexes if indexes else [...]]: [None] and the empty list
    are both replaced by the four default fields. *)
Definition default_indices : list string :=
  ["formula_pretty"; "formula_anonymous"; "output.energy"; "output.energy_per_atom"]%string.

Definition indices_or_default (indexes : option (list string)) : list string :=
  match indexes with
  | None | Some [] => default_indices
  | Some l => l
  end.

Definition compound_energy (formula : string) : list (string * direction) :=
  [(formula, ASCENDING); ("output.energy"%string, DESCENDING);
   ("completed_at"%string, DESCENDING)].

Definition compound_energy_per_atom (formula : string) : list (string * direction) :=
  [(formula, ASCENDING); ("output.energy_per_atom"%string, DESCENDING);
   ("completed_at"%string, DESCENDING)].

(** [MMVaspDb.build_indexes(indexes=None, background=True)] *)
Definition build_indexes (indexes : option (list string)) (background : bool) : M unit :=
  let _indices := indices_or_default indexes in
  create_index (mkIndex (single_key "task_id") true background) ;;;
  (* build single field indexes *)
  for_each _indices (fun i =>
    create_index (mkIndex (single_key i) false background)) ;;;
  (* build compound indexes *)
  for_each ["formula_pretty"; "formula_anonymous"]%string (fun formula =>
    create_index (mkIndex (compound_energy formula) false background) ;;;
    create_index (mkIndex (compound_energy_per_atom formula) false background)).

(** [MMVaspDb.insert_gridfs(d, collection="fs", compress=True)].
    [compress] is handed to [zlib.compress] as the level, and [True] is the
    integer [1].  The second component of the returned pair is the constant
    ["zlib"] on both branches. *)
Definition insert_gridfs `{Codec} (d : string) (collection : string) (compress : bool)
  : M (N * string) :=
  let d' := if compress then PBytes (zlib_compress (encode d) (Z.b2z compress))
            else PText d in
  fs_id <- gridfs_put collection d' ;;
  ret (fs_id, "zlib"%string).

(** [zlib.decompress] of what was read from the blob store: text is no
    bytes-like object. *)
Definition decompress_payload `{Codec} (p : payload) : result bytes :=
  match p with
  | PBytes b =>
      match zlib_decompress b with Some x => Ok x | None => Err ZlibError end
  | PText _ => Err TypeError
  end.

Definition loads `{Codec} (b : bytes) : result pyval :=
  match json_loads b with Some v => Ok v | None => Err ValueError end.

(** [m_task['calcs_reversed'][0]['bandstructure_fs_id']]: three subscripts,
    each of which may raise. *)
Definition fs_id_of (m_task : pyval) : result pyval :=
  rbind (rbind (getitem m_task (KStr "calcs_reversed"))
               (fun c => getitem c (KInt 0)))
        (fun c0 => getitem c0 (KStr "bandstructure_fs_id")).

(** [MMVaspDb.get_band_structure(task_id, line_mode=False)] *)
Definition get_band_structure `{Codec} `{BandStructures}
    (task_id : Z) (line_mode : bool) : M band_structure :=
  m_task <- find_one_task task_id ;;
  fs_id <- lift (fs_id_of m_task) ;;
  raw <- gridfs_get_read "bandstructure_fs" fs_id ;;
  bs_json <- lift (decompress_payload raw) ;;
  bs_dict <- lift (loads bs_json) ;;
  if line_mode then lift (BandStructureSymmLine_from_dict bs_dict)
  else lift (BandStructure_from_dict bs_dict).

(** The Counter document that [reset] writes. *)
Definition counter_zero : doc := [("_id"%string, VStr "taskid"); ("c"%string, VInt 0)].

(** [MMVaspDb.reset()] *)
Definition reset : M unit :=
  modify (set_collection []) ;;;
  counter_delete_one (IdStr "taskid") ;;;
  counter_insert_one counter_zero ;;;
  modify (set_boltztrap []) ;;;
  files_delete_many "dos_fs" ;;;
  chunks_delete_many "dos_fs" ;;;
  files_delete_many "dos_boltztrap_fs" ;;;
  chunks_delete_many "dos_boltztrap_fs" ;;;
  files_delete_many "bandstructure_fs" ;;;
  chunks_delete_many "bandstructure_fs" ;;;
  build_indexes None true.

(** A codec to run the definitions with: text is encoded character by
    character, "compression" prefixes the data with one header byte, and
    JSON decoding knows the empty object only. *)
Definition toy_encode (s : string) : bytes := String.list_byte_of_string s.

Definition toy_compress (b : bytes) (level : Z) : bytes :=
  Byte.x78 :: b.

Definition toy_decompress (b : bytes) : option bytes :=
  match b with
  | Byte.x78 :: b' => Some b'
  | _ => None
  end.

Definition toy_loads (b : bytes) : option pyval :=
  match b with
  | [Byte.x7b; Byte.x7d] => Some (VDict [])
  | _ => None
  end.

Definition toy_codec : Codec := Build_Codec toy_encode toy_compress toy_decompress toy_loads.

(** Stand-ins for the two classes: an object records its class and the
    dictionary it was rebuilt from; the general class takes any
    dictionary, the line-mode class wants a field [labels_dict]. *)
Inductive toy_band_structure : Type :=
| ToyBandStructure (line : bool) (bs_dict : list (string * pyval)).

Definition toy_from_dict (bs_dict : pyval) : result toy_band_structure :=
  match bs_dict with
  | VDict d => Ok (ToyBandStructure false d)
  | _ => Err TypeError
  end.

Definition toy_symm_line_from_dict (bs_dict : pyval) : result toy_band_structure :=
  match bs_dict with
  | VDict d =>
      match assoc "labels_dict" d with
      | Some _ => Ok (ToyBandStructure true d)
      | None => Err KeyError
      end
  | _ => Err TypeError
  end.

Global Instance toy_classes : BandStructures :=
  Build_BandStructures toy_band_structure toy_from_dict toy_symm_line_from_dict.


(** *** Vocabulary of the properties below *)

(** The Task Record carries a blob reference: its [calcs_reversed] is a list
    whose first entry is a document with a [bandstructure_fs_id] field. *)
Definition has_bandstructure_ref (d : doc) : bool :=
  match assoc "calcs_reversed" d with
  | Some (VList (VDict c0 :: _)) =>
      match assoc "bandstructure_fs_id" c0 with Some _ => true | None => false end
  | _ => false
  end.

Definition task_absent (task_id : Z) (db : MMDb) : bool :=
  match List.find (has_task_id task_id) (collection db) with
  | None => true
  | Some _ => false
  end.

(** No Task Record with that [task_id], or the one found carries no
    reference. *)
Definition lacks_bandstructure_ref (task_id : Z) (db : MMDb) : bool :=
  match List.find (has_task_id task_id) (collection db) with
  | None => true
  | Some d => negb (has_bandstructure_ref d)
  end.

(** The exception the three subscripts raise on what [find_one] returned
    when the reference is missing, by the shape of the record: [None] is
    not subscriptable; a missing field is a [KeyError], also a document
    in the place of the list (it has no key 0) and a first calculation
    without [bandstructure_fs_id]; an empty list (or string) is an
    [IndexError]; any other value in the place of the list or of its
    first entry is not subscriptable the way the code does it. *)
Definition missing_reference_error (found : option doc) : pyerror :=
  match found with
  | None => TypeError
  | Some d =>
      match assoc "calcs_reversed" d with
      | None => KeyError
      | Some (VDict _) => KeyError
      | Some (VList []) => IndexError
      | Some (VList (VDict _ :: _)) => KeyError
      | Some (VList (_ :: _)) => TypeError
      | Some (VStr EmptyString) => IndexError
      | Some _ => TypeError
      end
  end.

(** The index set of a freshly built Task Record collection: what the
    documentation of [build_indexes] lists for the default fields. *)
Definition default_index_set (background : bool) : list index_spec :=
  [ mkIndex [("task_id", ASCENDING)] true background;
    mkIndex [("formula_pretty", ASCENDING)] false background;
    mkIndex [("formula_anonymous", ASCENDING)] false background;
    mkIndex [("output.energy", ASCENDING)] false background;
    mkIndex [("output.energy_per_atom", ASCENDING)] false background;
    mkIndex [("formula_pretty", ASCENDING); ("output.energy", DESCENDING);
             ("completed_at", DESCENDING)] false background;
    mkIndex [("formula_pretty", ASCENDING); ("output.energy_per_atom", DESCENDING);
             ("completed_at", DESCENDING)] false background;
    mkIndex [("formula_anonymous", ASCENDING); ("output.energy", DESCENDING);
             ("completed_at", DESCENDING)] false background;
    mkIndex [("formula_anonymous", ASCENDING); ("output.energy_per_atom", DESCENDING);
             ("completed_at", DESCENDING)] false background ]%string.

(** Stores to run the methods on: an empty one; one whose only Task Record
    (task 7) has no [calcs_reversed]; one in use, with a stale counter, a
    non-default index and blobs. *)
Definition empty_db : MMDb := mkDb [] [] ∅ [] ∅.

Definition task7_bare : doc :=
  [("_id", VOid 1); ("task_id", VInt 7); ("formula_pretty", VStr "Si")]%string.

Definition db_task7 : MMDb := mkDb [task7_bare] [] ∅ [] ∅.

Definition used_db : MMDb :=
  mkDb [task7_bare]
       [mkIndex [("dir_name"%string, ASCENDING)] false true]
       {[ IdStr "taskid" := [("_id", VStr "taskid"); ("c", VInt 8)]%string ]}
       [[("_id", VOid 2)]%string]
       {[ "bandstructure_fs"%string := mkBucket {[ 3%N := 2 ]} {[ 3%N := PText "{}" ]} ]}.


(** The store as [reset] leaves it before it builds the indexes: no Task
    Record, the Counter document at zero, no [boltztrap] document, no blob
    in the three buckets; the index metadata is as it was. *)
Definition wiped (db : MMDb) : MMDb :=
  mkDb [] (indexes db)
       (<[IdStr "taskid" := counter_zero]> (counter db))
       []
       (<["bandstructure_fs"%string := empty_bucket]>
          (<["dos_boltztrap_fs"%string := empty_bucket]>
             (<["dos_fs"%string := empty_bucket]> (gridfs db)))).


(** Task Records with a [calcs_reversed] of different shapes, and a store
    whose task 9 refers to a blob that holds the compressed text "{}". *)
Definition task8_no_calcs : doc :=
  [("_id", VOid 4); ("task_id", VInt 8); ("calcs_reversed", VList [])]%string.

Definition task9_no_ref : doc :=
  [("_id", VOid 5); ("task_id", VInt 9);
   ("calcs_reversed", VList [VDict [("dir_name", VStr "run1")]])]%string.

Definition task9_with_ref : doc :=
  [("_id", VOid 5); ("task_id", VInt 9);
   ("calcs_reversed", VList [VDict [("bandstructure_fs_id", VOid 0)]])]%string.

Definition db_shapes : MMDb := mkDb [task7_bare; task8_no_calcs; task9_no_ref] [] ∅ [] ∅.

Definition db_with_blob : MMDb :=
  mkDb [task9_with_ref] [] ∅ []
       {[ "bandstructure_fs"%string :=
            mkBucket {[ 0%N := 3 ]} {[ 0%N := PBytes [Byte.x78; Byte.x7b; Byte.x7d] ]} ]}.


(** *** Vocabulary of the further properties *)

(** The index metadata after one [create_index]. *)
Definition add_index (l : list index_spec) (ix : index_spec) : list index_spec :=
  if decide (ix ∈ l) then l else l ++ [ix].

(** The [create_index] calls of [build_indexes], in the order it makes
    them. *)
Definition planned_indexes (indexes : option (list string)) (background : bool)
  : list index_spec :=
  mkIndex (single_key "task_id") true background
  :: map (fun i => mkIndex (single_key i) false background) (indices_or_default indexes)
  ++ flat_map (fun formula =>
                 [mkIndex (compound_energy formula) false background;
                  mkIndex (compound_energy_per_atom formula) false background])
              ["formula_pretty"; "formula_anonymous"]%string.

(** A store whose task 9 refers to a blob that is not there. *)
Definition db_dangling : MMDb := mkDb [task9_with_ref] [] ∅ [] ∅.


(** What [fs.get(fs_id).read()] finds in a bucket. *)
Definition read_blob (b : bucket) (fs_id : pyval) : result payload :=
  match fs_id with
  | VOid n =>
      match files b !! n with
      | None => Err NoFile
      | Some _ =>
          match chunks b !! n with
          | Some p => Ok p
          | None => Err CorruptGridFile
          end
      end
  | _ => Err NoFile
  end.

(** What [get_band_structure] computes from the Task Records and the
    bucket [bandstructure_fs]. *)
Definition band_structure_in `{Codec} `{BandStructures} (records : list doc)
    (b : bucket) (task_id : Z) (line_mode : bool) : result band_structure :=
  let m_task := match List.find (has_task_id task_id) records with
                | Some d => VDict (project_calcs_reversed d)
                | None => VNone
                end in
  rbind (fs_id_of m_task) (fun fs_id =>
  rbind (read_blob b fs_id) (fun raw =>
  rbind (decompress_payload raw) (fun bs_json =>
  rbind (loads bs_json) (fun bs_dict =>
  if line_mode then BandStructureSymmLine_from_dict bs_dict
  else BandStructure_from_dict bs_dict)))).

End Database.
Export Database.

(* ===================================================================== *)
(** ** [matmethods/vasp/workflows/base/raman.py] *)
(* ===================================================================== *)

Module Raman.

(** A structure: a lattice and a list of sites (species and fractional
    coordinates).  [len(structure)] is the number of sites. *)
Definition vec3 : Type := (Q * Q * Q)%type.

Record Site : Type := mkSite {
  species : string;
  frac_coords : vec3
}.

Record Structure : Type := mkStructure {
  lattice : vec3 * vec3 * vec3;
  sites : list Site
}.

Definition len (structure : Structure) : nat := length (sites structure).

(** [structure.composition.reduced_formula] is pymatgen's. *)
Class Pymatgen : Type := {
  reduced_formula : Structure -> string
}.

(** [MPRelaxSet(structure, force_gamma=True)] *)
Record VaspInputSet : Type := MPRelaxSet {
  vis_structure : Structure;
  force_gamma : bool
}.

(** The one firetask the assembler creates itself. *)
Inductive Firetask : Type :=
| RamanSusceptibilityTensorToDbTask (db_file : option string).

(** Modelled from the spec: the Task Graph Node.  [OptimizeFW] and [LepsFW]
    (matmethods/vasp/fireworks/core.py) and the engine's [Firework] are not
    part of the sources at hand; a node records which constructor made it,
    with the arguments the assembler passed, and its parents.  A parent is
    the node object itself, as in the code. *)
Inductive Contents : Type :=
| OptimizeContents (structure : Structure) (vasp_input_set : VaspInputSet)
                   (ediffg : Q) (vasp_cmd : string) (db_file : option string)
| LepsContents (structure : Structure) (vasp_cmd : string) (db_file : option string)
               (phonon : bool) (mode : option Z) (displacement : option Q)
| TaskContents (task : Firetask) (name : string).

Inductive Firework : Type :=
| mkFirework (contents : Contents) (parents : list Firework).

Definition fw_contents (fw : Firework) : Contents :=
  match fw with mkFirework c _ => c end.

Definition fw_parents (fw : Firework) : list Firework :=
  match fw with mkFirework _ ps => ps end.

(** [OptimizeFW(structure=..., vasp_input_set=..., ediffg=..., vasp_cmd=...,
    db_file=...)]: no [parents] argument. *)
Definition OptimizeFW (structure : Structure) (vasp_input_set : VaspInputSet)
    (ediffg : Q) (vasp_cmd : string) (db_file : option string) : Firework :=
  mkFirework (OptimizeContents structure vasp_input_set ediffg vasp_cmd db_file) [].

(** [LepsFW(structure, parents=fw, vasp_cmd=..., db_file=..., phonon=...,
    mode=..., displacement=...)]: [parents] is a single node. *)
Definition LepsFW (structure : Structure) (parents : Firework) (vasp_cmd : string)
    (db_file : option string) (phonon : bool) (mode : option Z)
    (displacement : option Q) : Firework :=
  mkFirework (LepsContents structure vasp_cmd db_file phonon mode displacement)
             [parents].

(** [Firework(task, parents=[...], name=...)] *)
Definition Firework_of_task (task : Firetask) (parents : list Firework)
    (name : string) : Firework :=
  mkFirework (TaskContents task name) parents.

(** Modelled from the spec: the Workflow, a named collection of nodes; the
    dependency edges are the nodes' parent references. *)
Record Workflow : Type := mkWorkflow {
  fws : list Firework;
  wf_name : string
}.

(** The step kinds of the spec's data model.  The phonon node and the
    displaced nodes are both made by [LepsFW]; a displaced node is one that
    carries a mode and a displacement. *)
Inductive kind : Type := Optimize | Phonon | DisplacedStatic | Analysis.

Global Instance kind_eq_dec : EqDecision kind.
Proof. solve_decision. Defined.

Definition fw_kind (fw : Firework) : kind :=
  match fw_contents fw with
  | OptimizeContents _ _ _ _ _ => Optimize
  | LepsContents _ _ _ _ (Some _) (Some _) => DisplacedStatic
  | LepsContents _ _ _ _ _ _ => Phonon
  | TaskContents _ _ => Analysis
  end.

Definition is_kind (k : kind) (fw : Firework) : bool :=
  bool_decide (fw_kind fw = k).

(** The nodes of a kind in a workflow, in the workflow's order. *)
Definition nodes_of (k : kind) (wf : Workflow) : list Firework :=
  List.filter (is_kind k) (fws wf).

(** Is the node tagged with mode [m] and displacement [d]?  Displacements
    are compared as numbers, as Python compares floats. *)
Definition tagged (m : Z) (d : Q) (fw : Firework) : bool :=
  match fw_contents fw with
  | LepsContents _ _ _ _ (Some m') (Some d') => Z.eqb m' m && Qeq_bool d' d
  | _ => false
  end.

(** [modes or range(3*len(structure))]: [None] and an empty collection are
    both replaced by the indices 0, ..., 3N-1. *)
Definition range (n : nat) : list Z := map Z.of_nat (seq 0 n).

Definition modes_or_all (modes : option (list Z)) (structure : Structure) : list Z :=
  match modes with
  | None | Some [] => range (3 * len structure)
  | Some ms => ms
  end.

(** Defaults of the keyword arguments.  A step size is a Python float; the
    assembler only negates it, which is exact, so a rational stands for it. *)
Definition default_step_size : Q := (5 # 1000)%Q.
Definition default_vasp_cmd : string := "vasp".

(** [get_wf_raman_spectra(structure, modes=None, step_size=0.005,
                          vasp_cmd="vasp", db_file=None)] *)
Definition get_wf_raman_spectra `{Pymatgen} (structure : Structure)
    (modes : option (list Z)) (step_size : Q) (vasp_cmd : string)
    (db_file : option string) : Workflow :=
  let modes := modes_or_all modes structure in
  let vis := MPRelaxSet structure true in
  let displacements := [Qopp step_size; step_size] in
  let fws := [] in
  (* Structure optimization *)
  let fw_opt := OptimizeFW structure vis (- (5 # 100))%Q vasp_cmd db_file in
  let fws := fws ++ [fw_opt] in
  (* Static run: compute the normal modes and pass *)
  let fw_leps := LepsFW structure fw_opt vasp_cmd db_file true None None in
  let fws := fws ++ [fw_leps] in
  (* Static runs for each mode and displacement along that mode *)
  let fws_nm_disp :=
    flat_map (fun mode =>
      map (fun disp =>
             LepsFW structure fw_leps vasp_cmd db_file true (Some mode) (Some disp))
          displacements) modes in
  let fws := fws ++ fws_nm_disp in
  (* Compute the Raman susceptibility tensor *)
  let fw_analysis :=
    Firework_of_task (RamanSusceptibilityTensorToDbTask db_file) fws_nm_disp
      (reduced_formula structure ++ "-" ++ "raman analysis")%string in
  let fws := fws ++ [fw_analysis] in
  let wfname := (reduced_formula structure ++ ":" ++ "raman spectra")%string in
  mkWorkflow fws wfname.

(** [MPRelaxSet(structure, force_gamma=True)] as pymatgen runs it: no
    input set is made for a structure without sites, the constructor
    raises [ValueError]. *)
Definition MPRelaxSet_checked (structure : Structure) (force_gamma : bool)
  : result VaspInputSet :=
  match sites structure with
  | [] => Err ValueError
  | _ :: _ => Ok (MPRelaxSet structure force_gamma)
  end.

(** The call [get_wf_raman_spectra(...)] as it runs.  The input set is made
    (line 45) before any node is; when pymatgen refuses the structure the
    call raises and returns no workflow, otherwise it returns the workflow
    assembled as above, with that input set in the optimization node. *)
Definition get_wf_raman_spectra_call `{Pymatgen} (structure : Structure)
    (modes : option (list Z)) (step_size : Q) (vasp_cmd : string)
    (db_file : option string) : result Workflow :=
  rbind (MPRelaxSet_checked structure true) (fun _ =>
    Ok (get_wf_raman_spectra structure modes step_size vasp_cmd db_file)).

(** A stand-in for pymatgen's formula, to run the assembler with: the
    species of the sites, concatenated. *)
Definition toy_pymatgen : Pymatgen :=
  Build_Pymatgen (fun s => String.concat "" (map species (sites s))).

Definition origin : vec3 := (0, 0, 0)%Q.
Definition cubic : vec3 * vec3 * vec3 :=
  ((1, 0, 0), (0, 1, 0), (0, 0, 1))%Q.

(** Structures to run it on: two silicon atoms, one atom, no atom. *)
Definition Si2 : Structure :=
  mkStructure cubic [mkSite "Si" origin; mkSite "Si" ((1 # 4), (1 # 4), (1 # 4))%Q].
Definition Si1 : Structure := mkStructure cubic [mkSite "Si" origin].
Definition no_sites : Structure := mkStructure cubic [].


(** *** Vocabulary of the further properties *)

(** What a node carries, by field; [None] where the node has no such
    field. *)
Definition fw_mode (fw : Firework) : option Z :=
  match fw_contents fw with
  | LepsContents _ _ _ _ mode _ => mode
  | _ => None
  end.

Definition fw_displacement (fw : Firework) : option Q :=
  match fw_contents fw with
  | LepsContents _ _ _ _ _ displacement => displacement
  | _ => None
  end.

Definition fw_db_file (fw : Firework) : option string :=
  match fw_contents fw with
  | OptimizeContents _ _ _ _ db_file => db_file
  | LepsContents _ _ db_file _ _ _ => db_file
  | TaskContents (RamanSusceptibilityTensorToDbTask db_file) _ => db_file
  end.

Definition fw_structure (fw : Firework) : option Structure :=
  match fw_contents fw with
  | OptimizeContents structure _ _ _ _ => Some structure
  | LepsContents structure _ _ _ _ _ => Some structure
  | TaskContents _ _ => None
  end.

Definition fw_vasp_cmd (fw : Firework) : option string :=
  match fw_contents fw with
  | OptimizeContents _ _ _ vasp_cmd _ => Some vasp_cmd
  | LepsContents _ vasp_cmd _ _ _ _ => Some vasp_cmd
  | TaskContents _ _ => None
  end.

(** The node list is in dependency order: every parent of a node stands
    before it in the list ([seen] are the nodes passed so far). *)
Fixpoint parents_precede (seen l : list Firework) : Prop :=
  match l with
  | [] => True
  | fw :: l' =>
      Forall (fun p => In p seen) (fw_parents fw)
      /\ parents_precede (seen ++ [fw]) l'
  end.


(** A list with every two neighbours exchanged: the second entry before the
    first, the fourth before the third, and so on. *)
Fixpoint swap_pairs {A} (l : list A) : list A :=
  match l with
  | a :: b :: l' => b :: a :: swap_pairs l'
  | _ => l
  end.

End Raman.
Export Raman.

(* ===================================================================== *)
(** ** Properties of the result store *)
(* ===================================================================== *)

Section store_lemmas.

Lemma bind_ok {A B} (m : M A) (k : A -> M B) db a db' :
  m db = (Ok a, db') -> bind m k db = k a db'.
Proof. intros E. unfold bind. now rewrite E. Qed.

Lemma get_set_bucket name b db : get_bucket name (set_bucket name b db) = b.
Proof. unfold get_bucket, set_bucket; simpl. now rewrite lookup_insert_eq. Qed.

(** The projection of [find_one] keeps the field [calcs_reversed]. *)
Lemma assoc_project_calcs_reversed (d : doc) :
  assoc "calcs_reversed" (project_calcs_reversed d) = assoc "calcs_reversed" d.
Proof.
  unfold project_calcs_reversed.
  induction d as [|[k v] d IH]; [reflexivity|].
  cbn [List.filter fst assoc].
  rewrite (String.eqb_sym "calcs_reversed" k).
  destruct (String.eqb k "calcs_reversed") eqn:Hk.
  - rewrite orb_true_r. cbn [assoc].
    now rewrite (String.eqb_sym "calcs_reversed" k), Hk.
  - rewrite orb_false_r. destruct (String.eqb k "_id"); [|exact IH].
    cbn [assoc]. now rewrite (String.eqb_sym "calcs_reversed" k), Hk.
Qed.

Lemma index_extension_refl db : index_extension db db.
Proof. unfold index_extension; auto. Qed.

Lemma index_extension_trans db1 db2 db3 :
  index_extension db1 db2 -> index_extension db2 db3 -> index_extension db1 db3.
Proof.
  unfold index_extension.
  intros (?&?&?&?&?) (?&?&?&?&?). repeat split; try congruence; auto.
Qed.

(** [create_index] never fails, leaves the index in place, keeps the
    indexes that were there and touches nothing else. *)
Lemma create_index_run ix db :
  exists db', create_index ix db = (Ok tt, db')
    /\ ix ∈ indexes db' /\ index_extension db db'.
Proof.
  unfold create_index, modify, index_extension. case_decide as Hin.
  - exists db. repeat split; auto.
  - eexists. split; [reflexivity|]. simpl.
    repeat split; auto; set_solver.
Qed.

(** A loop whose body never fails and only adds indexes does the same, and
    what each round establishes still holds at the end. *)
Lemma for_each_run {A} (P : A -> MMDb -> Prop) (body : A -> M unit) (xs : list A) :
  (forall x db, exists db',
      body x db = (Ok tt, db') /\ P x db' /\ index_extension db db') ->
  (forall x db db', P x db -> index_extension db db' -> P x db') ->
  forall db, exists db',
    for_each xs body db = (Ok tt, db')
    /\ Forall (fun x => P x db') xs /\ index_extension db db'.
Proof.
  intros Hbody Hmono. induction xs as [|x xs IH]; intros db.
  - exists db. split; [reflexivity|]. split; [constructor | apply index_extension_refl].
  - destruct (Hbody x db) as (db1 & E1 & HP & Hext1).
    destruct (IH db1) as (db2 & E2 & Hall & Hext2).
    exists db2. cbn [for_each]. rewrite (bind_ok _ _ _ _ _ E1).
    split; [exact E2|]. split; [|eapply index_extension_trans; eauto].
    constructor; [eapply Hmono; eauto | exact Hall].
Qed.

Lemma index_kept ix db db' :
  ix ∈ indexes db -> index_extension db db' -> ix ∈ indexes db'.
Proof. intros Hin (Hsub & _). auto. Qed.

(** [build_indexes] with any index list: it returns [None] after ensuring
    the unique index, one index per listed field and the four compound
    ones, and leaves everything else alone. *)
Lemma build_indexes_run (indexes0 : option (list string)) (background : bool) db :
  exists db', build_indexes indexes0 background db = (Ok tt, db')
    /\ mkIndex (single_key "task_id") true background ∈ indexes db'
    /\ Forall (fun i => mkIndex (single_key i) false background ∈ indexes db')
              (indices_or_default indexes0)
    /\ Forall (fun formula =>
                 mkIndex (compound_energy formula) false background ∈ indexes db'
                 /\ mkIndex (compound_energy_per_atom formula) false background
                      ∈ indexes db')
              ["formula_pretty"; "formula_anonymous"]%string
    /\ index_extension db db'.
Proof.
  unfold build_indexes.
  destruct (create_index_run (mkIndex (single_key "task_id") true background) db)
    as (db1 & E1 & H1 & X1).
  destruct (for_each_run
              (fun i d => mkIndex (single_key i) false background ∈ indexes d)
              (fun i => create_index (mkIndex (single_key i) false background))
              (indices_or_default indexes0)) with (db := db1)
    as (db2 & E2 & H2 & X2).
  { intros x d. apply create_index_run. }
  { intros x d d'. apply index_kept. }
  destruct (for_each_run
              (fun formula d =>
                 mkIndex (compound_energy formula) false background ∈ indexes d
                 /\ mkIndex (compound_energy_per_atom formula) false background
                      ∈ indexes d)
              (fun formula =>
                 create_index (mkIndex (compound_energy formula) false background) ;;;
                 create_index (mkIndex (compound_energy_per_atom formula) false background))
              ["formula_pretty"; "formula_anonymous"]%string) with (db := db2)
    as (db3 & E3 & H3 & X3).
  { intros x d.
    destruct (create_index_run (mkIndex (compound_energy x) false background) d)
      as (d1 & Ea & Ha & Xa).
    destruct (create_index_run (mkIndex (compound_energy_per_atom x) false background) d1)
      as (d2 & Eb & Hb & Xb).
    exists d2. rewrite (bind_ok _ _ _ _ _ Ea).
    split; [exact Eb|]. split; [split|];
      eauto using index_kept, index_extension_trans. }
  { intros x d d' [Ha Hb] X. split; eapply index_kept; eauto. }
  exists db3.
  rewrite (bind_ok _ _ _ _ _ E1), (bind_ok _ _ _ _ _ E2).
  split; [exact E3|]. split; [|split; [|split; [exact H3|]]].
  - eapply index_kept; [eapply index_kept; [exact H1 | exact X2] | exact X3].
  - eapply Forall_impl; [exact H2|]. intros i Hi. exact (index_kept _ _ _ Hi X3).
  - eapply index_extension_trans; [eapply index_extension_trans|]; eauto.
Qed.

End store_lemmas.

Section store_properties.

(** From what [build_indexes_run] gives for the default fields (hypothesis
    [Hs] for the single-field indexes) to the nine entries of
    [default_index_set]. *)
Ltac default_set_from_run Hs :=
  cbn [indices_or_default] in Hs; unfold default_indices in Hs;
  repeat match goal with
         | H : Forall _ (_ :: _) |- _ => apply Forall_cons_1 in H; destruct H
         end;
  unfold default_index_set, single_key, compound_energy, compound_energy_per_atom in *;
  repeat (constructor; [tauto|]); constructor.

(** C8: [build_indexes], called with no index list, returns [None] and
    leaves in the index metadata of the Task Record collection the unique
    index on [task_id], the ascending single-field indexes on
    [formula_pretty], [formula_anonymous], [output.energy] and
    [output.energy_per_atom], and for each of the two formula fields the
    compound indexes (formula ASC, output.energy DESC, completed_at DESC)
    and (formula ASC, output.energy_per_atom DESC, completed_at DESC);
    nothing but index metadata changes. *)
Theorem build_indexes_default_set (background : bool) (db : MMDb) :
  exists db',
    build_indexes None background db = (Ok tt, db')
    /\ Forall (fun ix => ix ∈ indexes db') (default_index_set background)
    /\ index_extension db db'.
Proof.
  destruct (build_indexes_run None background db) as (db' & E & Ht & Hs & Hc & X).
  exists db'. split; [exact E|]. split; [|exact X].
  default_set_from_run Hs.
Qed.

(** The Counter document is deleted and inserted again: the insertion
    finds its [_id] free. *)
Lemma counter_reinsert {B} (k : unit -> M B) (db : MMDb) :
  bind (counter_delete_one (IdStr "taskid"))
       (fun _ => bind (counter_insert_one counter_zero) k) db
  = k tt (set_counter (<[IdStr "taskid" := counter_zero]> (counter db)) db).
Proof.
  unfold bind, counter_delete_one, modify, counter_insert_one.
  change (doc_id counter_zero) with (Some (IdStr "taskid")).
  cbn [counter set_counter]. rewrite lookup_delete_eq.
  rewrite insert_delete_eq. destruct db; reflexivity.
Qed.

(** Emptying [name.files] and then [name.chunks] empties the bucket. *)
Lemma bucket_wipe {B} (name : string) (k : unit -> M B) (db : MMDb) :
  bind (files_delete_many name)
       (fun _ => bind (chunks_delete_many name) k) db
  = k tt (set_bucket name empty_bucket db).
Proof.
  unfold bind, files_delete_many, chunks_delete_many, modify.
  rewrite get_set_bucket. cbn [files chunks]. f_equal.
  unfold set_bucket; cbn [gridfs collection indexes counter boltztrap].
  now rewrite insert_insert_eq.
Qed.

(** [reset] is the ten deletions and the insertion, which never fail,
    followed by [build_indexes()]. *)
Lemma reset_unfold (db : MMDb) : reset db = build_indexes None true (wiped db).
Proof.
  unfold reset.
  change (bind (modify (set_collection [])) ?k db) with (k tt (set_collection [] db)).
  cbv beta. rewrite counter_reinsert.
  change (bind (modify (set_boltztrap [])) ?k ?d) with (k tt (set_boltztrap [] d)).
  cbv beta. rewrite !bucket_wipe.
  unfold bind. 
  destruct db; reflexivity.
Qed.

(** C5: [reset()] never fails.  It deletes all Task Records, deletes the
    Counter document and inserts it again as {_id: "taskid", c: 0}, deletes
    all documents of [boltztrap] and of the "files" and "chunks"
    collections of [dos_fs], [dos_boltztrap_fs] and [bandstructure_fs], and
    then runs [build_indexes()]; afterwards the Task Record collection is
    empty, the Counter document is {_id: "taskid", c: 0}, the auxiliary
    collections are empty and the default index set is in place. *)
Theorem reset_ok (db : MMDb) :
  exists db',
    reset db = (Ok tt, db')
    /\ build_indexes None true (wiped db) = (Ok tt, db')
    /\ collection db' = []
    /\ counter db' !! IdStr "taskid"
       = Some [("_id"%string, VStr "taskid"); ("c"%string, VInt 0)]
    /\ boltztrap db' = []
    /\ Forall (fun name => files (get_bucket name db') = ∅
                           /\ chunks (get_bucket name db') = ∅)
              ["dos_fs"; "dos_boltztrap_fs"; "bandstructure_fs"]%string
    /\ Forall (fun ix => ix ∈ indexes db') (default_index_set true).
Proof.
  destruct (build_indexes_run None true (wiped db)) as (db' & E & Ht & Hs & Hcp & X).
  destruct X as (_ & Hc & Hn & Hb & Hg).
  exists db'. rewrite reset_unfold.
  split; [exact E|]. split; [exact E|].
  split; [rewrite Hc; reflexivity|].
  split; [rewrite Hn; cbn [wiped counter]; apply lookup_insert_eq|].
  split; [rewrite Hb; reflexivity|].
  split; [|default_set_from_run Hs].
  unfold get_bucket. rewrite Hg. cbn [wiped gridfs].
  repeat constructor;
    repeat first [ rewrite lookup_insert_eq | rewrite lookup_insert_ne by discriminate ];
    reflexivity.
Qed.

Example reset_used_db :
  fst (reset used_db) = Ok tt
  /\ collection (snd (reset used_db)) = []
  /\ length (indexes (snd (reset used_db))) = 10
  /\ chunks (get_bucket "bandstructure_fs" (snd (reset used_db))) !! 3%N = None.
Proof. vm_compute. repeat split. Qed.

(** [insert_gridfs] never fails and the tag it returns is ["zlib"],
    whatever [compress] is. *)
Lemma insert_gridfs_tag `{Codec} (d collection0 : string) (compress : bool) (db : MMDb) :
  exists fs_id, fst (insert_gridfs d collection0 compress db) = Ok (fs_id, "zlib"%string).
Proof. eexists. reflexivity. Qed.

(** What [fs.get(fs_id).read()] returns right after [fs.put(p)]. *)
Lemma gridfs_put_get (name : string) (p : payload) (db : MMDb) :
  exists fs_id db',
    gridfs_put name p db = (Ok fs_id, db')
    /\ gridfs_get_read name (VOid fs_id) db' = (Ok p, db').
Proof.
  eexists _, _. split; [reflexivity|].
  unfold gridfs_get_read. rewrite get_set_bucket. cbn [files chunks].
  now rewrite !lookup_insert_eq.
Qed.

(** C1: at [compress = False] the document is stored as it is, not
    compressed, and [insert_gridfs] still returns the tag ["zlib"]: the
    tag "none" that the claim asks for is never returned. *)
Theorem insert_gridfs_uncompressed_tag `{Codec} (d collection0 : string) (db : MMDb) :
  exists fs_id db',
    insert_gridfs d collection0 false db = (Ok (fs_id, "zlib"%string), db')
    /\ chunks (get_bucket collection0 db') !! fs_id = Some (PText d).
Proof.
  eexists _, _. split; [reflexivity|].
  rewrite get_set_bucket. cbn [chunks]. apply lookup_insert_eq.
Qed.

(** Storing with compression: the blob is the compressed bytes of [d], it
    is read back under the returned id, it decompresses to the bytes of [d],
    and the Task Records are not touched. *)
Lemma insert_gridfs_stores `{C : Codec} `{!ZlibLaws C}
    (d collection0 : string) (db : MMDb) :
  exists fs_id db' raw,
    insert_gridfs d collection0 true db = (Ok (fs_id, "zlib"%string), db')
    /\ gridfs_get_read collection0 (VOid fs_id) db' = (Ok raw, db')
    /\ decompress_payload raw = Ok (encode d)
    /\ collection db' = collection db.
Proof.
  unfold insert_gridfs.
  destruct (gridfs_put_get collection0
              (PBytes (zlib_compress (encode d) (Z.b2z true))) db)
    as (fs_id & db' & Eput & Eget).
  exists fs_id, db', (PBytes (zlib_compress (encode d) (Z.b2z true))).
  rewrite (bind_ok _ _ _ _ _ Eput).
  split; [reflexivity|]. split; [exact Eget|]. split.
  - unfold decompress_payload. now rewrite zlib_decompress_compress.
  - unfold gridfs_put in Eput. now inversion Eput.
Qed.

(** C6: after [insert_gridfs(d, collection, compress=True)] on any store,
    reading the blob back from the same collection under the returned id
    and decompressing it with zlib yields exactly the bytes of the input
    [d]. *)
Theorem insert_gridfs_roundtrip `{C : Codec} `{!ZlibLaws C}
    (d collection0 : string) (db : MMDb) :
  exists fs_id db' raw,
    insert_gridfs d collection0 true db = (Ok (fs_id, "zlib"%string), db')
    /\ gridfs_get_read collection0 (VOid fs_id) db' = (Ok raw, db')
    /\ decompress_payload raw = Ok (encode d).
Proof.
  destruct (insert_gridfs_stores d collection0 db)
    as (fs_id & db' & raw & Eins & Eget & Edec & _).
  exists fs_id, db', raw. auto.
Qed.

Lemma toy_zlib_laws : ZlibLaws toy_codec.
Proof. constructor. intros b level. reflexivity. Qed.

Lemma insert_gridfs_roundtrip_witness :
  exists fs_id db' raw,
    insert_gridfs (H := toy_codec) "{}" "bandstructure_fs" true used_db
      = (Ok (fs_id, "zlib"%string), db')
    /\ gridfs_get_read "bandstructure_fs" (VOid fs_id) db' = (Ok raw, db')
    /\ decompress_payload (H := toy_codec) raw = Ok [Byte.x7b; Byte.x7d].
Proof.
  exact (@insert_gridfs_roundtrip toy_codec toy_zlib_laws "{}" "bandstructure_fs" used_db).
Defined.

(** On a record without the reference the three subscripts raise the
    exception that belongs to its shape. *)
Lemma fs_id_of_without_ref (d : doc) :
  has_bandstructure_ref d = false ->
  fs_id_of (VDict (project_calcs_reversed d)) = Err (missing_reference_error (Some d)).
Proof.
  unfold has_bandstructure_ref, fs_id_of, missing_reference_error.
  cbn [getitem rbind]. rewrite assoc_project_calcs_reversed.
  destruct (assoc "calcs_reversed" d) as [c|]; [|reflexivity].
  destruct c as [ | b | z | s | n | l | c ]; try reflexivity.
  - (* a string: its first character is no document *)
    intros _. destruct s; reflexivity.
  - (* a list *)
    destruct l as [|c0 l]; [reflexivity|].
    destruct c0 as [ | b | z | s | n | l0 | c0 ]; try reflexivity.
    cbn [getitem rbind]. change (py_index (VDict c0 :: l) 0) with (Some (VDict c0)).
    cbn [getitem rbind].
    destruct (assoc "bandstructure_fs_id" c0); [discriminate|reflexivity].
Qed.

(** C2 (as the code has it): whenever no Task Record with that [task_id]
    exists or the one found carries no
    [calcs_reversed[0].bandstructure_fs_id], [get_band_structure] fails, it
    returns nothing and leaves the store as it was.  What it raises is no
    [NotFoundError] but the exception of the failing subscript:
    [TypeError] when the record is absent; [KeyError] when the record has
    no [calcs_reversed], when [calcs_reversed] is a document, or when its
    first entry is a document without [bandstructure_fs_id]; [IndexError]
    when [calcs_reversed] is an empty list or an empty string; [TypeError]
    for any other shape. *)
Theorem get_band_structure_missing_fails `{Codec} `{BandStructures}
    (task_id : Z) (line_mode : bool) (db : MMDb) :
  lacks_bandstructure_ref task_id db = true ->
  get_band_structure task_id line_mode db
  = (Err (missing_reference_error
            (List.find (has_task_id task_id) (collection db))), db).
Proof.
  unfold lacks_bandstructure_ref, get_band_structure.
  unfold bind at 1. unfold find_one_task, gets.
  destruct (List.find (has_task_id task_id) (collection db)) as [d|].
  - intros Hno. apply negb_true_iff in Hno.
    unfold bind, lift. now rewrite (fs_id_of_without_ref d Hno).
  - intros _. reflexivity.
Qed.

Lemma get_band_structure_missing_fails_witness :
  get_band_structure (H := toy_codec) 7 false db_task7 = (Err KeyError, db_task7).
Proof.
  exact (@get_band_structure_missing_fails toy_codec toy_classes 7 false db_task7 eq_refl).
Defined.

(** The exception per shape: no record, no [calcs_reversed], an empty
    [calcs_reversed], a first calculation without the reference; and a
    lookup that reaches [from_dict], which here accepts the empty
    dictionary for the general class and not for the line-mode class. *)
Example get_band_structure_shapes :
  map (fun t => fst (get_band_structure (H := toy_codec) t false db_shapes))
      [6; 7; 8; 9]%Z
  = [Err TypeError; Err KeyError; Err IndexError; Err KeyError].
Proof. reflexivity. Qed.

Example get_band_structure_found :
  fst (get_band_structure (H := toy_codec) 9 false db_with_blob)
    = Ok (ToyBandStructure false [])
  /\ fst (get_band_structure (H := toy_codec) 9 true db_with_blob)
    = Err KeyError.
Proof. split; reflexivity. Qed.

(** C2 (as stated) fails: on a store without Task Records the lookup of
    any task raises [TypeError], which is no [NotFoundError]; and on a
    record without [calcs_reversed] it raises [KeyError]. *)
Lemma get_band_structure_not_NotFoundError :
  task_absent 7 empty_db = true
  /\ fst (get_band_structure (H := toy_codec) 7 false empty_db) = Err TypeError
  /\ lacks_bandstructure_ref 7 db_task7 = true
  /\ fst (get_band_structure (H := toy_codec) 7 false db_task7) = Err KeyError
  /\ Err TypeError <> Err (A := toy_band_structure) NotFoundError
  /\ Err KeyError <> Err (A := toy_band_structure) NotFoundError.
Proof. repeat split; try reflexivity; discriminate. Qed.

(* --------------------------------------------------------------------- *)
(** *** Further properties of [build_indexes] *)
(* --------------------------------------------------------------------- *)

Lemma create_index_eq (ix : index_spec) (db : MMDb) :
  create_index ix db = (Ok tt, set_indexes (add_index (indexes db) ix) db).
Proof.
  unfold create_index, modify, add_index. case_decide; [|reflexivity].
  destruct db; reflexivity.
Qed.

Lemma set_indexes_twice (l l' : list index_spec) (db : MMDb) :
  set_indexes l (set_indexes l' db) = set_indexes l db.
Proof. reflexivity. Qed.

Lemma for_each_create_index {A} (f : A -> index_spec) (xs : list A) (db : MMDb) :
  for_each xs (fun x => create_index (f x)) db
  = (Ok tt, set_indexes (fold_left add_index (map f xs) (indexes db)) db).
Proof.
  revert db. induction xs as [|x xs IH]; intros db.
  - cbn. destruct db; reflexivity.
  - cbn [for_each map fold_left].
    rewrite (bind_ok _ _ _ _ _ (create_index_eq (f x) db)), IH.
    reflexivity.
Qed.

Lemma for_each_create_two {A} (f g : A -> index_spec) (xs : list A) (db : MMDb) :
  for_each xs (fun x => create_index (f x) ;;; create_index (g x)) db
  = (Ok tt, set_indexes
              (fold_left add_index (flat_map (fun x => [f x; g x]) xs) (indexes db)) db).
Proof.
  revert db. induction xs as [|x xs IH]; intros db.
  - cbn. destruct db; reflexivity.
  - cbn [for_each flat_map app fold_left].
    erewrite bind_ok; [|erewrite bind_ok; [apply create_index_eq | apply create_index_eq]].
    rewrite IH. reflexivity.
Qed.

(** [build_indexes] as one pass over its planned calls. *)
Lemma build_indexes_fold (indexes0 : option (list string)) (background : bool) (db : MMDb) :
  build_indexes indexes0 background db
  = (Ok tt, set_indexes
              (fold_left add_index (planned_indexes indexes0 background) (indexes db)) db).
Proof.
  unfold build_indexes, planned_indexes.
  rewrite (bind_ok _ _ _ _ _ (create_index_eq _ db)).
  erewrite bind_ok; [|apply for_each_create_index].
  rewrite for_each_create_two.
  cbn [fold_left]. rewrite fold_left_app. reflexivity.
Qed.

Lemma fold_add_index_prefix (planned l : list index_spec) :
  exists added, fold_left add_index planned l = l ++ added
                /\ length added <= length planned
                /\ Forall (fun j => j ∈ planned) added.
Proof.
  revert l. induction planned as [|ix planned IH]; intros l; cbn [fold_left].
  - exists []. rewrite app_nil_r. repeat split; constructor.
  - destruct (IH (add_index l ix)) as (added & E & Hlen & Hall).
    assert (Forall (fun j => j ∈ ix :: planned) added) as Hall'.
    { eapply Forall_impl; [exact Hall|]. intros j Hj. apply elem_of_cons. now right. }
    unfold add_index in *. case_decide.
    + exists added. split; [exact E|]. split; [cbn [length]; lia | exact Hall'].
    + exists (ix :: added). rewrite E, <- app_assoc. split; [reflexivity|].
      split; [cbn [length]; lia|]. constructor; [apply elem_of_cons; now left | exact Hall'].
Qed.

Lemma fold_add_index_present (planned l : list index_spec) :
  Forall (fun ix => ix ∈ l) planned -> fold_left add_index planned l = l.
Proof.
  induction 1 as [|ix planned Hix _ IH]; [reflexivity|].
  cbn [fold_left]. unfold add_index at 2. now rewrite decide_True.
Qed.

Lemma fold_add_index_keeps (planned l : list index_spec) (j : index_spec) :
  j ∈ l -> j ∈ fold_left add_index planned l.
Proof.
  intros Hj. destruct (fold_add_index_prefix planned l) as (added & -> & _).
  apply elem_of_app. now left.
Qed.

Lemma fold_add_index_all (planned l : list index_spec) :
  Forall (fun ix => ix ∈ fold_left add_index planned l) planned.
Proof.
  revert l. induction planned as [|ix planned IH]; intros l; [constructor|].
  cbn [fold_left]. constructor; [|apply IH].
  apply fold_add_index_keeps. unfold add_index. case_decide; [assumption|].
  apply elem_of_app. right. apply elem_of_cons. now left.
Qed.

(* --------------------------------------------------------------------- *)
(** *** Further properties of [reset] *)
(* --------------------------------------------------------------------- *)

Lemma reset_run (db : MMDb) :
  reset db
  = (Ok tt, set_indexes
              (fold_left add_index (planned_indexes None true) (indexes db))
              (wiped db)).
Proof. rewrite reset_unfold. exact (build_indexes_fold None true (wiped db)). Qed.

Lemma wiped_wiped (db : MMDb) : wiped (wiped db) = wiped db.
Proof.
  unfold wiped. cbn [indexes counter gridfs]. f_equal.
  - apply insert_insert_eq.
  - apply map_eq. intros name. rewrite !lookup_insert.
    repeat case_decide; reflexivity.
Qed.

(** X4: [reset] is idempotent: a second [reset] succeeds and leaves the
    store exactly as the first one left it. *)
Theorem reset_idempotent (db : MMDb) :
  exists db', reset db = (Ok tt, db') /\ reset db' = (Ok tt, db').
Proof.
  eexists. split; [apply reset_run|].
  rewrite reset_run. cbn [indexes set_indexes].
  rewrite fold_add_index_present by apply fold_add_index_all.
  change (wiped (set_indexes ?l (wiped db))) with (set_indexes l (wiped (wiped db))).
  rewrite wiped_wiped. reflexivity.
Qed.

(** X5: what [reset] leaves alone: every index that was there (indexes are
    not dropped), every Counter document other than "taskid", and every
    blob bucket other than [dos_fs], [dos_boltztrap_fs] and
    [bandstructure_fs], among them the bucket "fs" that [insert_gridfs]
    writes to by default. *)
Theorem reset_keeps (db : MMDb) :
  exists db',
    reset db = (Ok tt, db')
    /\ Forall (fun ix => ix ∈ indexes db') (indexes db)
    /\ (forall k, k <> IdStr "taskid" -> counter db' !! k = counter db !! k)
    /\ (forall name : string,
          name <> "dos_fs"%string -> name <> "dos_boltztrap_fs"%string ->
          name <> "bandstructure_fs"%string ->
          get_bucket name db' = get_bucket name db)
    /\ get_bucket "fs" db' = get_bucket "fs" db.
Proof.
  eexists. split; [apply reset_run|]. cbn [indexes set_indexes].
  assert (forall name : string,
             name <> "dos_fs"%string -> name <> "dos_boltztrap_fs"%string ->
             name <> "bandstructure_fs"%string ->
             get_bucket name (set_indexes
               (fold_left add_index (planned_indexes None true) (indexes db))
               (wiped db)) = get_bucket name db) as Hbuckets.
  { intros name H1 H2 H3. unfold get_bucket. cbn [gridfs set_indexes wiped].
    now rewrite !lookup_insert_ne by congruence. }
  split; [|split; [|split; [exact Hbuckets|]]].
  - apply List.Forall_forall. intros ix Hix.
    apply fold_add_index_keeps. now apply list_elem_of_In.
  - intros k Hk. cbn [counter set_indexes wiped].
    now rewrite lookup_insert_ne by congruence.
  - apply Hbuckets; discriminate.
Qed.

(* --------------------------------------------------------------------- *)
(** *** Further properties of [insert_gridfs] and [get_band_structure] *)
(* --------------------------------------------------------------------- *)

Lemma get_set_bucket_ne (name name' : string) (b : bucket) (db : MMDb) :
  name <> name' -> get_bucket name' (set_bucket name b db) = get_bucket name' db.
Proof.
  intros Hne. unfold get_bucket, set_bucket. cbn [gridfs].
  now rewrite lookup_insert_ne.
Qed.

Lemma gridfs_get_read_eq (name : string) (fs_id : pyval) (db : MMDb) :
  gridfs_get_read name fs_id db = (read_blob (get_bucket name db) fs_id, db).
Proof.
  unfold gridfs_get_read, read_blob. destruct fs_id; try reflexivity.
  destruct (files (get_bucket name db) !! n); [|reflexivity].
  now destruct (chunks (get_bucket name db) !! n).
Qed.

(** [get_band_structure] is a function of the Task Records and of the
    bucket [bandstructure_fs], and hands the store back as it got it. *)
Lemma get_band_structure_eq `{Codec} `{BandStructures} (task_id : Z) (line_mode : bool) (db : MMDb) :
  get_band_structure task_id line_mode db
  = (band_structure_in (collection db) (get_bucket "bandstructure_fs" db)
       task_id line_mode, db).
Proof.
  unfold get_band_structure, band_structure_in.
  unfold bind at 1. unfold find_one_task, gets.
  set (m_task := match List.find (has_task_id task_id) (collection db) with
                 | Some d => VDict (project_calcs_reversed d)
                 | None => VNone
                 end).
  unfold bind at 1. unfold lift at 1.
  destruct (fs_id_of m_task) as [fs_id|e]; [|reflexivity]. cbn [rbind].
  unfold bind at 1. rewrite gridfs_get_read_eq.
  destruct (read_blob (get_bucket "bandstructure_fs" db) fs_id) as [raw|e];
    [|reflexivity]. cbn [rbind].
  unfold bind at 1. unfold lift at 1.
  destruct (decompress_payload raw) as [bs_json|e]; [|reflexivity]. cbn [rbind].
  unfold bind, lift.
  destruct (loads bs_json) as [bs_dict|e]; [|reflexivity]. cbn [rbind].
  now destruct line_mode.
Qed.

(** The id [fs.put] returns is new to the bucket. *)
Lemma gridfs_put_run (name : string) (p : payload) (db : MMDb) :
  exists n,
    gridfs_put name p db
    = (Ok n, set_bucket name
               (mkBucket (<[n := payload_length p]> (files (get_bucket name db)))
                         (<[n := p]> (chunks (get_bucket name db)))) db)
    /\ files (get_bucket name db) !! n = None
    /\ chunks (get_bucket name db) !! n = None.
Proof.
  eexists. split; [reflexivity|].
  pose proof (is_fresh (dom (files (get_bucket name db))
                        ∪ dom (chunks (get_bucket name db)))) as Hfresh.
  apply not_elem_of_union in Hfresh. destruct Hfresh as [Hf Hc].
  split; now apply not_elem_of_dom.
Qed.

(** X8: [get_band_structure] only reads: whatever it returns or raises, the
    store is as before; and the outcome depends on nothing but the Task
    Records and the bucket [bandstructure_fs]. *)
Theorem get_band_structure_read_only `{Codec} `{BandStructures} (task_id : Z) (line_mode : bool)
    (db : MMDb) :
  snd (get_band_structure task_id line_mode db) = db
  /\ forall db2,
       collection db2 = collection db ->
       get_bucket "bandstructure_fs" db2 = get_bucket "bandstructure_fs" db ->
       fst (get_band_structure task_id line_mode db2)
       = fst (get_band_structure task_id line_mode db).
Proof.
  rewrite get_band_structure_eq. split; [reflexivity|].
  intros db2 Hc Hb. rewrite get_band_structure_eq. cbn [fst]. now rewrite Hc, Hb.
Qed.

(** X10: a Task Record whose reference names no blob of [bandstructure_fs]
    (an object id without file, or a value that is no object id) makes
    [get_band_structure] raise gridfs's [NoFile]. *)
Theorem get_band_structure_dangling `{Codec} `{BandStructures} (task_id : Z) (line_mode : bool)
    (db : MMDb) (rec : doc) (fs_id : pyval) :
  List.find (has_task_id task_id) (collection db) = Some rec ->
  fs_id_of (VDict (project_calcs_reversed rec)) = Ok fs_id ->
  match fs_id with
  | VOid n => files (get_bucket "bandstructure_fs" db) !! n = None
  | _ => True
  end ->
  get_band_structure task_id line_mode db = (Err NoFile, db).
Proof.
  intros Hfind Hid Hnone. rewrite get_band_structure_eq. f_equal.
  unfold band_structure_in. rewrite Hfind, Hid. cbn [rbind].
  unfold read_blob. destruct fs_id; try reflexivity. now rewrite Hnone.
Qed.

Lemma get_band_structure_dangling_witness :
  get_band_structure (H := toy_codec) 9 true db_dangling = (Err NoFile, db_dangling).
Proof.
  exact (@get_band_structure_dangling toy_codec toy_classes 9 true db_dangling task9_with_ref
           (VOid 0) eq_refl eq_refl eq_refl).
Defined.

(** X11: [get_band_structure] looks in [bandstructure_fs] only: storing a
    blob in any other collection, such as the default "fs" of
    [insert_gridfs], changes the outcome for no task. *)
Theorem insert_gridfs_elsewhere_unseen `{Codec} `{BandStructures} (d collection0 : string)
    (compress : bool) (db : MMDb) (task_id : Z) (line_mode : bool) :
  collection0 <> "bandstructure_fs"%string ->
  exists fs_id db',
    insert_gridfs d collection0 compress db = (Ok (fs_id, "zlib"%string), db')
    /\ fst (get_band_structure task_id line_mode db')
       = fst (get_band_structure task_id line_mode db).
Proof.
  intros Hne. unfold insert_gridfs.
  destruct (gridfs_put_run collection0
              (if compress then PBytes (zlib_compress (encode d) (Z.b2z compress))
               else PText d) db) as (n & Eput & _ & _).
  eexists n, _. rewrite (bind_ok _ _ _ _ _ Eput). split; [reflexivity|].
  rewrite !get_band_structure_eq. cbn [fst].
  now rewrite get_set_bucket_ne.
Qed.

Lemma insert_gridfs_elsewhere_unseen_witness :
  exists fs_id db',
    insert_gridfs (H := toy_codec) "{}" "fs" true db_with_blob
      = (Ok (fs_id, "zlib"%string), db')
    /\ fst (get_band_structure (H := toy_codec) 9 false db')
       = fst (get_band_structure (H := toy_codec) 9 false db_with_blob).
Proof.
  apply (@insert_gridfs_elsewhere_unseen toy_codec toy_classes "{}" "fs" true
           db_with_blob 9 false).
  discriminate.
Defined.

(** X12: right after [reset] no band structure can be looked up: for every
    task [get_band_structure] raises [TypeError], the Task Record
    collection being empty. *)
Theorem get_band_structure_after_reset `{Codec} `{BandStructures} (db : MMDb) (task_id : Z)
    (line_mode : bool) :
  exists db',
    reset db = (Ok tt, db')
    /\ get_band_structure task_id line_mode db' = (Err TypeError, db').
Proof.
  eexists. split; [apply reset_run|].
  rewrite get_band_structure_eq. reflexivity.
Qed.



End store_properties.

(* ===================================================================== *)
(** ** Properties of the Raman workflow *)
(* ===================================================================== *)

Section raman_properties.

Context `{Pymatgen}.
Variables (structure : Structure) (step_size : Q) (vasp_cmd : string)
          (db_file : option string).

(** The nodes of the workflow, by the names they have in the code. *)
Let fw_opt : Firework :=
  OptimizeFW structure (MPRelaxSet structure true) (- (5 # 100))%Q vasp_cmd db_file.
Let fw_leps : Firework :=
  LepsFW structure fw_opt vasp_cmd db_file true None None.
Let fw_disp (mode : Z) (disp : Q) : Firework :=
  LepsFW structure fw_leps vasp_cmd db_file true (Some mode) (Some disp).
Let fws_nm_disp (ms : list Z) : list Firework :=
  flat_map (fun mode => [fw_disp mode (- step_size)%Q; fw_disp mode step_size]) ms.
Let fw_analysis (ms : list Z) : Firework :=
  Firework_of_task (RamanSusceptibilityTensorToDbTask db_file) (fws_nm_disp ms)
    (reduced_formula structure ++ "-" ++ "raman analysis")%string.

Lemma fws_unfold (modes : option (list Z)) :
  fws (get_wf_raman_spectra structure modes step_size vasp_cmd db_file)
  = fw_opt :: fw_leps :: fws_nm_disp (modes_or_all modes structure)
      ++ [fw_analysis (modes_or_all modes structure)].
Proof. reflexivity. Qed.

Lemma fws_nm_disp_length (ms : list Z) : length (fws_nm_disp ms) = 2 * length ms.
Proof.
  induction ms as [|m ms IH]; [reflexivity|].
  change (fws_nm_disp (m :: ms))
    with (fw_disp m (- step_size)%Q :: fw_disp m step_size :: fws_nm_disp ms).
  cbn [length]. rewrite IH. lia.
Qed.

Lemma fws_nm_disp_kind (ms : list Z) :
  Forall (fun fw => fw_kind fw = DisplacedStatic /\ fw_parents fw = [fw_leps])
         (fws_nm_disp ms).
Proof.
  induction ms as [|m ms IH]; [constructor|].
  change (fws_nm_disp (m :: ms))
    with (fw_disp m (- step_size)%Q :: fw_disp m step_size :: fws_nm_disp ms).
  constructor; [split; reflexivity|]. constructor; [split; reflexivity|].
  exact IH.
Qed.

Lemma filter_all {A} (p : A -> bool) (l : list A) :
  Forall (fun x => p x = true) l -> List.filter p l = l.
Proof.
  induction 1 as [|x l Hx _ IH]; [reflexivity|].
  cbn [List.filter]. now rewrite Hx, IH.
Qed.

Lemma filter_none {A} (p : A -> bool) (l : list A) :
  Forall (fun x => p x = false) l -> List.filter p l = [].
Proof.
  induction 1 as [|x l Hx _ IH]; [reflexivity|].
  cbn [List.filter]. now rewrite Hx, IH.
Qed.

Lemma is_kind_displaced (k : kind) (ms : list Z) :
  Forall (fun fw => is_kind k fw = bool_decide (DisplacedStatic = k)) (fws_nm_disp ms).
Proof.
  eapply Forall_impl; [apply fws_nm_disp_kind|].
  intros fw [Hk _]. unfold is_kind. now rewrite Hk.
Qed.

(** The nodes of each kind, for any [modes] argument. *)
Lemma nodes_of_kinds (modes : option (list Z)) :
  let wf := get_wf_raman_spectra structure modes step_size vasp_cmd db_file in
  let ms := modes_or_all modes structure in
  nodes_of Optimize wf = [fw_opt]
  /\ nodes_of Phonon wf = [fw_leps]
  /\ nodes_of DisplacedStatic wf = fws_nm_disp ms
  /\ nodes_of Analysis wf = [fw_analysis ms].
Proof.
  intros wf ms. unfold nodes_of, wf. rewrite fws_unfold. fold ms.
  cbn [List.filter]. rewrite !List.filter_app.
  repeat split.
  - rewrite (filter_none (is_kind Optimize) (fws_nm_disp ms)); [reflexivity|].
    eapply Forall_impl; [apply (is_kind_displaced Optimize)|]. now intros fw ->.
  - rewrite (filter_none (is_kind Phonon) (fws_nm_disp ms)); [reflexivity|].
    eapply Forall_impl; [apply (is_kind_displaced Phonon)|]. now intros fw ->.
  - rewrite (filter_all (is_kind DisplacedStatic) (fws_nm_disp ms));
      [apply app_nil_r|].
    eapply Forall_impl; [apply (is_kind_displaced DisplacedStatic)|]. now intros fw ->.
  - rewrite (filter_none (is_kind Analysis) (fws_nm_disp ms)); [reflexivity|].
    eapply Forall_impl; [apply (is_kind_displaced Analysis)|]. now intros fw ->.
Qed.

Lemma range_length (n : nat) : length (range n) = n.
Proof. unfold range. now rewrite length_map, length_seq. Qed.

Lemma range_NoDup (n : nat) : List.NoDup (range n).
Proof.
  unfold range. apply Finite.Injective_map_NoDup; [|apply List.seq_NoDup].
  intros a b. apply Nat2Z.inj.
Qed.


(** C4: in every workflow the assembler produces there is one optimize
    node, without parents; one phonon node, whose only parent is the
    optimize node; every displaced static node has the phonon node as its
    only parent; and there is one analysis node, whose parents are exactly
    the displaced static nodes. *)
Theorem raman_parents (modes : option (list Z)) :
  let wf := get_wf_raman_spectra structure modes step_size vasp_cmd db_file in
  exists opt phonon analysis : Firework,
    nodes_of Optimize wf = [opt]
    /\ nodes_of Phonon wf = [phonon]
    /\ nodes_of Analysis wf = [analysis]
    /\ fw_parents opt = []
    /\ fw_parents phonon = [opt]
    /\ Forall (fun fw => fw_parents fw = [phonon]) (nodes_of DisplacedStatic wf)
    /\ fw_parents analysis = nodes_of DisplacedStatic wf.
Proof.
  intros wf.
  destruct (nodes_of_kinds modes) as (Ho & Hp & Hd & Ha). fold wf in Ho, Hp, Hd, Ha.
  exists fw_opt, fw_leps, (fw_analysis (modes_or_all modes structure)).
  rewrite Hd. repeat split; try assumption.
  eapply Forall_impl; [apply fws_nm_disp_kind|]. now intros fw [_ Hpar].
Qed.

Lemma Qopp_eq_self (q : Q) : (- q == q)%Q -> (q == 0)%Q.
Proof.
  unfold Qeq, Qopp. cbn [Qnum Qden]. intros E.
  rewrite Z.mul_opp_l in E. lia.
Qed.

Lemma tagged_fw_disp (m m' : Z) (d d' : Q) :
  tagged m d (fw_disp m' d') = Z.eqb m' m && Qeq_bool d' d.
Proof. reflexivity. Qed.

Lemma filter_tagged_absent (m : Z) (d : Q) (ms : list Z) :
  ~ In m ms -> List.filter (tagged m d) (fws_nm_disp ms) = [].
Proof.
  induction ms as [|m' ms IH]; [reflexivity|]. intros Hnot.
  change (fws_nm_disp (m' :: ms))
    with (fw_disp m' (- step_size)%Q :: fw_disp m' step_size :: fws_nm_disp ms).
  cbn [List.filter]. rewrite !tagged_fw_disp.
  assert (Z.eqb m' m = false) as -> by (apply Z.eqb_neq; intros ->; apply Hnot; now left).
  cbn [andb]. apply IH. intros Hin. apply Hnot. now right.
Qed.

(** Among the two nodes of one mode, exactly one carries a given one of the
    two displacements, unless the step is zero. *)
Lemma filter_tagged_pair (m : Z) (d : Q) :
  ~ (step_size == 0)%Q -> In d [(- step_size)%Q; step_size] ->
  length (List.filter (tagged m d) [fw_disp m (- step_size)%Q; fw_disp m step_size]) = 1.
Proof.
  intros Hs Hd. cbn [List.filter]. rewrite !tagged_fw_disp, Z.eqb_refl. cbn [andb].
  assert (Qeq_bool (- step_size) step_size = false) as Hne.
  { destruct (Qeq_bool (- step_size) step_size) eqn:E; [|reflexivity].
    apply Qeq_bool_iff, Qopp_eq_self in E. contradiction. }
  assert (Qeq_bool step_size (- step_size) = false) as Hne'.
  { destruct (Qeq_bool step_size (- step_size)) eqn:E; [|reflexivity].
    apply Qeq_bool_iff in E. symmetry in E. apply Qopp_eq_self in E. contradiction. }
  destruct Hd as [<- | [<- | []]].
  - rewrite Hne'. now rewrite (proj2 (Qeq_bool_iff _ _) (Qeq_refl _)).
  - rewrite Hne. now rewrite (proj2 (Qeq_bool_iff _ _) (Qeq_refl _)).
Qed.

Lemma filter_tagged_once (m : Z) (d : Q) (ms : list Z) :
  List.NoDup ms -> In m ms ->
  ~ (step_size == 0)%Q -> In d [(- step_size)%Q; step_size] ->
  length (List.filter (tagged m d) (fws_nm_disp ms)) = 1.
Proof.
  intros Hnd Hin Hs Hd. induction Hnd as [|m' ms Hnot Hnd IH]; [destruct Hin|].
  change (fws_nm_disp (m' :: ms))
    with ([fw_disp m' (- step_size)%Q; fw_disp m' step_size] ++ fws_nm_disp ms).
  rewrite List.filter_app, length_app.
  destruct (Z.eq_dec m' m) as [->|Hne].
  - rewrite filter_tagged_pair by assumption.
    now rewrite filter_tagged_absent.
  - destruct Hin as [->|Hin]; [contradiction|]. rewrite (IH Hin).
    cbn [List.filter]. rewrite !tagged_fw_disp.
    assert (Z.eqb m' m = false) as -> by now apply Z.eqb_neq.
    reflexivity.
Qed.

Lemma fws_nm_disp_tagged (ms : list Z) :
  Forall (fun fw => exists m d, In m ms /\ In d [(- step_size)%Q; step_size]
                                /\ tagged m d fw = true)
         (fws_nm_disp ms).
Proof.
  induction ms as [|m ms IH]; [constructor|].
  change (fws_nm_disp (m :: ms))
    with (fw_disp m (- step_size)%Q :: fw_disp m step_size :: fws_nm_disp ms).
  assert (forall q, Qeq_bool q q = true) as Hrefl
      by (intros q; apply Qeq_bool_iff, Qeq_refl).
  constructor; [|constructor].
  - exists m, (- step_size)%Q. rewrite tagged_fw_disp, Z.eqb_refl, Hrefl.
    repeat split; cbn; auto.
  - exists m, step_size. rewrite tagged_fw_disp, Z.eqb_refl, Hrefl.
    repeat split; cbn; auto.
  - eapply Forall_impl; [exact IH|]. intros fw (m' & d & Hm & Hd & Ht).
    exists m', d. repeat split; auto. now right.
Qed.

(** C7 (as the code has it): let M be the mode list in effect, the given
    one when it is not empty and the indices 0, ..., 3N-1 otherwise.  If M
    repeats no index and the step size is not zero, the workflow has
    2 * |M| displaced static nodes; for each mode of M and each of the two
    displacements -step_size and +step_size exactly one node of the
    workflow is tagged with that pair; every displaced node carries such a
    tag; and no displaced node is a parent of another. *)
Theorem raman_displaced_nodes (modes : option (list Z)) :
  let ms := modes_or_all modes structure in
  let wf := get_wf_raman_spectra structure modes step_size vasp_cmd db_file in
  List.NoDup ms ->
  ~ (step_size == 0)%Q ->
  length (nodes_of DisplacedStatic wf) = 2 * length ms
  /\ (forall m d, In m ms -> In d [(- step_size)%Q; step_size] ->
        length (List.filter (tagged m d) (fws wf)) = 1)
  /\ Forall (fun fw => exists m d, In m ms /\ In d [(- step_size)%Q; step_size]
                                   /\ tagged m d fw = true)
            (nodes_of DisplacedStatic wf)
  /\ (forall x y, In x (nodes_of DisplacedStatic wf) ->
                  In y (nodes_of DisplacedStatic wf) -> ~ In x (fw_parents y)).
Proof.
  intros ms wf Hnd Hs.
  destruct (nodes_of_kinds modes) as (_ & _ & Hd & _). fold wf ms in Hd.
  rewrite Hd. split; [apply fws_nm_disp_length|]. split; [|split].
  - intros m d Hm Hin. unfold wf. rewrite fws_unfold. fold ms.
    cbn [List.filter]. change (tagged m d fw_opt) with false.
    change (tagged m d fw_leps) with false. cbv iota.
    rewrite List.filter_app, length_app, filter_tagged_once by assumption.
    reflexivity.
  - apply fws_nm_disp_tagged.
  - intros x y Hx Hy Hpar.
    pose proof (fws_nm_disp_kind ms) as Hall. rewrite List.Forall_forall in Hall.
    destruct (Hall x Hx) as [Hkx _]. destruct (Hall y Hy) as [_ Hpy].
    rewrite Hpy in Hpar. destruct Hpar as [<- | []]. discriminate Hkx.
Qed.

Lemma fws_nm_disp_modes (ms : list Z) :
  map fw_mode (fws_nm_disp ms) = flat_map (fun m => [Some m; Some m]) ms.
Proof.
  induction ms as [|m ms IH]; [reflexivity|].
  change (fws_nm_disp (m :: ms))
    with (fw_disp m (- step_size)%Q :: fw_disp m step_size :: fws_nm_disp ms).
  cbn [map flat_map app]. now rewrite IH.
Qed.

(** C10: for every structure, the call with an explicitly empty [modes]
    does what the call with no [modes] does.  When it returns a workflow,
    the displaced nodes are those of all mode indices 0, ..., 3N-1, two
    for each, and the analysis node has 6N parents, at least one: a
    workflow is returned only for a structure with atoms (for one without,
    the call raises [ValueError] before any node is built), so no analysis
    node without parents arises from an empty [modes]. *)
Theorem raman_empty_modes_as_default :
  get_wf_raman_spectra_call structure (Some []) step_size vasp_cmd db_file
  = get_wf_raman_spectra_call structure None step_size vasp_cmd db_file
  /\ match get_wf_raman_spectra_call structure (Some []) step_size vasp_cmd db_file with
     | Ok wf =>
         map fw_mode (nodes_of DisplacedStatic wf)
         = flat_map (fun m => [Some m; Some m]) (range (3 * len structure))
         /\ exists analysis,
              nodes_of Analysis wf = [analysis]
              /\ length (fw_parents analysis) = 6 * len structure
              /\ 0 < length (fw_parents analysis)
     | Err e => e = ValueError /\ len structure = 0
     end.
Proof.
  split; [reflexivity|].
  unfold get_wf_raman_spectra_call, MPRelaxSet_checked.
  destruct (sites structure) as [|site rest] eqn:Hsites; cbn [rbind].
  - split; [reflexivity|]. unfold len. now rewrite Hsites.
  - destruct (nodes_of_kinds (Some [])) as (_ & _ & Hd & Ha).
    rewrite Hd, Ha. cbn [modes_or_all]. split; [apply fws_nm_disp_modes|].
    eexists. split; [reflexivity|].
    cbn [fw_analysis Firework_of_task fw_parents].
    rewrite fws_nm_disp_length, range_length.
    unfold len. rewrite Hsites. cbn [length]. lia.
Qed.

(* --------------------------------------------------------------------- *)
(** *** Further properties of the assembler *)
(* --------------------------------------------------------------------- *)

Lemma fws_nm_disp_tags (ms : list Z) :
  map (fun fw => (fw_mode fw, fw_displacement fw)) (fws_nm_disp ms)
  = flat_map (fun m => [(Some m, Some (- step_size)%Q); (Some m, Some step_size)]) ms.
Proof.
  induction ms as [|m ms IH]; [reflexivity|].
  change (fws_nm_disp (m :: ms))
    with (fw_disp m (- step_size)%Q :: fw_disp m step_size :: fws_nm_disp ms).
  cbn [map flat_map app]. now rewrite IH.
Qed.

(** X14: a non-empty [modes] is taken as it is, whatever the size of the
    structure: no index is checked against 3N and repeated indices are
    kept.  The workflow has 2 * |modes| + 3 nodes, and its displaced nodes
    are, in the order of [modes], one with displacement -step_size followed
    by one with +step_size for each entry. *)
Theorem raman_given_modes (m : Z) (ms : list Z) :
  let wf := get_wf_raman_spectra structure (Some (m :: ms)) step_size vasp_cmd db_file in
  length (fws wf) = 2 * length (m :: ms) + 3
  /\ map (fun fw => (fw_mode fw, fw_displacement fw)) (nodes_of DisplacedStatic wf)
     = flat_map (fun m' => [(Some m', Some (- step_size)%Q); (Some m', Some step_size)])
                (m :: ms).
Proof.
  intros wf.
  destruct (nodes_of_kinds (Some (m :: ms))) as (_ & _ & Hd & _). fold wf in Hd.
  rewrite Hd. unfold wf. rewrite fws_unfold. cbn [modes_or_all].
  split; [|apply fws_nm_disp_tags].
  cbn [length]. rewrite length_app, fws_nm_disp_length. cbn [length]. lia.
Qed.

Lemma parents_precede_displaced (seen : list Firework) (ms : list Z) (rest : list Firework) :
  In fw_leps seen ->
  parents_precede (seen ++ fws_nm_disp ms) rest ->
  parents_precede seen (fws_nm_disp ms ++ rest).
Proof.
  revert seen. induction ms as [|m ms IH]; intros seen Hin Hrest.
  - cbn in *. now rewrite app_nil_r in Hrest.
  - change (fws_nm_disp (m :: ms))
      with ([fw_disp m (- step_size)%Q; fw_disp m step_size] ++ fws_nm_disp ms) in *.
    cbn [app parents_precede].
    split; [repeat constructor; exact Hin|].
    split; [repeat constructor; apply in_or_app; now left|].
    apply IH; [apply in_or_app; left; apply in_or_app; now left|].
    now rewrite <- !app_assoc in *.
Qed.

(** X15: the node list of every workflow is in dependency order and closed
    under parents: each parent of a node is itself a node of the workflow
    and stands before it in the list. *)
Theorem raman_parents_precede (modes : option (list Z)) :
  parents_precede []
    (fws (get_wf_raman_spectra structure modes step_size vasp_cmd db_file)).
Proof.
  rewrite fws_unfold.
  set (ms := modes_or_all modes structure).
  cbn [parents_precede app].
  split; [constructor|]. split; [repeat constructor|].
  apply parents_precede_displaced; [right; now left|].
  cbn [parents_precede]. split; [|exact I].
  apply List.Forall_forall. intros p Hp. apply in_or_app. now right.
Qed.

(** X16: the arguments are handed on unchanged: every node carries the
    given [db_file], and every node that runs VASP (optimization, phonon,
    displaced) the given structure and [vasp_cmd]. *)
Theorem raman_arguments_passed_on (modes : option (list Z)) :
  Forall (fun fw =>
            fw_db_file fw = db_file
            /\ match fw_kind fw with
               | Analysis => fw_structure fw = None /\ fw_vasp_cmd fw = None
               | _ => fw_structure fw = Some structure
                      /\ fw_vasp_cmd fw = Some vasp_cmd
               end)
         (fws (get_wf_raman_spectra structure modes step_size vasp_cmd db_file)).
Proof.
  rewrite fws_unfold.
  constructor; [repeat split|]. constructor; [repeat split|].
  apply Forall_app. split; [|repeat constructor].
  induction (modes_or_all modes structure) as [|m ms IH]; [constructor|].
  change (fws_nm_disp (m :: ms))
    with (fw_disp m (- step_size)%Q :: fw_disp m step_size :: fws_nm_disp ms).
  constructor; [repeat split|]. constructor; [repeat split|]. exact IH.
Qed.

(** X17: when the mode list in effect is not empty the workflow has one
    entry and one exit: the optimization node is the only node without
    parents, and the analysis node is the only node that is no parent of
    any node. *)
Theorem raman_entry_and_exit (modes : option (list Z)) :
  let wf := get_wf_raman_spectra structure modes step_size vasp_cmd db_file in
  modes_or_all modes structure <> [] ->
  Forall (fun fw =>
            (fw_parents fw = [] <-> fw_kind fw = Optimize)
            /\ ((forall child, In child (fws wf) -> ~ In fw (fw_parents child))
                <-> fw_kind fw = Analysis))
         (fws wf).
Proof.
  intros wf Hms. unfold wf. rewrite fws_unfold.
  set (ms := modes_or_all modes structure) in *.
  pose proof (fws_nm_disp_kind ms) as Hdisp. rewrite List.Forall_forall in Hdisp.
  assert (exists d, In d (fws_nm_disp ms)) as [d0 Hd0].
  { destruct ms as [|m ms']; [congruence|]. eexists. now left. }
  set (l := fw_opt :: fw_leps :: fws_nm_disp ms ++ [fw_analysis ms]).
  assert (In fw_leps l) as Hleps_in by (right; now left).
  assert (In (fw_analysis ms) l) as Hana_in
      by (right; right; apply in_or_app; right; now left).
  assert (forall child, In child l ->
            fw_parents child = [] \/ fw_parents child = [fw_opt]
            \/ fw_parents child = [fw_leps] \/ fw_parents child = fws_nm_disp ms)
    as Hpar.
  { intros child [<- | [<- | Hc]]; [now left | right; now left |].
    apply in_app_or in Hc. destruct Hc as [Hc | [<- | []]].
    - right; right; left. now apply Hdisp.
    - right; right; right. reflexivity. }
  apply List.Forall_forall. intros fw Hfw.
  destruct Hfw as [<- | [<- | Hfw]]; [| |apply in_app_or in Hfw; destruct Hfw as [Hfw | [<- | []]]].
  - (* the optimization node *)
    split; [split; reflexivity|]. split; [|discriminate].
    intros Hnone. exfalso. apply (Hnone fw_leps Hleps_in). now left.
  - (* the phonon node *)
    split; [split; discriminate|]. split; [|discriminate].
    intros Hnone. exfalso.
    apply (Hnone d0); [right; right; apply in_or_app; now left|].
    destruct (Hdisp d0 Hd0) as [_ ->]. now left.
  - (* a displaced node *)
    destruct (Hdisp fw Hfw) as [Hk Hp]. rewrite Hk, Hp.
    split; [split; discriminate|]. split; [|discriminate].
    intros Hnone. exfalso. apply (Hnone (fw_analysis ms) Hana_in). exact Hfw.
  - (* the analysis node *)
    split.
    + split; [|discriminate]. cbn [fw_analysis Firework_of_task fw_parents].
      intros E. rewrite E in Hd0. destruct Hd0.
    + split; [reflexivity|]. intros _ child Hchild Hin.
      destruct (Hpar child Hchild) as [E | [E | [E | E]]]; rewrite E in Hin.
      * destruct Hin.
      * destruct Hin as [E' | []]. discriminate (f_equal fw_kind E').
      * destruct Hin as [E' | []]. discriminate (f_equal fw_kind E').
      * destruct (Hdisp _ Hin) as [Hk _]. discriminate Hk.
Qed.

End raman_properties.

Lemma raman_entry_and_exit_witness :
  let wf := get_wf_raman_spectra (H := toy_pymatgen) Si1 None
              default_step_size default_vasp_cmd None in
  Forall (fun fw =>
            (fw_parents fw = [] <-> fw_kind fw = Optimize)
            /\ ((forall child, In child (fws wf) -> ~ In fw (fw_parents child))
                <-> fw_kind fw = Analysis))
         (fws wf).
Proof.
  apply (@raman_entry_and_exit toy_pymatgen Si1 default_step_size
           default_vasp_cmd None None).
  discriminate.
Defined.

Lemma raman_displaced_nodes_witness :
  let wf := get_wf_raman_spectra (H := toy_pymatgen) Si2 (Some [4; 0]%Z)
              default_step_size default_vasp_cmd None in
  length (nodes_of DisplacedStatic wf) = 2 * length [4; 0]%Z
  /\ (forall m d, In m [4; 0]%Z -> In d [(- default_step_size)%Q; default_step_size] ->
        length (List.filter (tagged m d) (fws wf)) = 1)
  /\ Forall (fun fw => exists m d, In m [4; 0]%Z
                                   /\ In d [(- default_step_size)%Q; default_step_size]
                                   /\ tagged m d fw = true)
            (nodes_of DisplacedStatic wf)
  /\ (forall x y, In x (nodes_of DisplacedStatic wf) ->
                  In y (nodes_of DisplacedStatic wf) -> ~ In x (fw_parents y)).
Proof.
  apply (@raman_displaced_nodes toy_pymatgen Si2 default_step_size
           default_vasp_cmd None (Some [4; 0]%Z)).
  - repeat constructor; cbn; intuition discriminate.
  - intros E. discriminate E.
Defined.

(** The workflow of one silicon atom with modes 2 and 0: kinds, modes and
    displacements of its seven nodes, in order. *)
Example raman_Si1_kinds :
  map fw_kind
      (fws (get_wf_raman_spectra (H := toy_pymatgen) Si1 (Some [2; 0]%Z)
              default_step_size default_vasp_cmd None))
  = [Optimize; Phonon; DisplacedStatic; DisplacedStatic; DisplacedStatic;
     DisplacedStatic; Analysis].
Proof. reflexivity. Qed.

Example raman_Si2_default_size :
  length (fws (get_wf_raman_spectra (H := toy_pymatgen) Si2 None
                 default_step_size default_vasp_cmd None)) = 15
  /\ wf_name (get_wf_raman_spectra (H := toy_pymatgen) Si2 None
                default_step_size default_vasp_cmd None) = "SiSi:raman spectra"%string.
Proof. split; reflexivity. Qed.

(** C7 (as stated) fails for an empty mode collection: on a structure of one
    atom the workflow has six displaced nodes, not 2 * 0; and at step size
    zero the two nodes of a mode carry the same (mode, displacement) pair. *)
Lemma raman_empty_modes_six_nodes :
  length (nodes_of DisplacedStatic
            (get_wf_raman_spectra (H := toy_pymatgen) Si1 (Some [])
               default_step_size default_vasp_cmd None)) = 6
  /\ 6 <> 2 * length (@nil Z)
  /\ length (List.filter (tagged 0 0)
               (fws (get_wf_raman_spectra (H := toy_pymatgen) Si1 (Some [0%Z])
                       0%Q default_vasp_cmd None))) = 2.
Proof. repeat split; try reflexivity. discriminate. Qed.

Lemma Qopp_opp (q : Q) : (- - q)%Q = q.
Proof. destruct q as [n d]. unfold Qopp. cbn [Qnum Qden]. now rewrite Z.opp_involutive. Qed.

Lemma swap_pairs_flat_map {A B} (f g : A -> B) (l : list A) :
  swap_pairs (flat_map (fun x => [f x; g x]) l) = flat_map (fun x => [g x; f x]) l.
Proof.
  induction l as [|x l IH]; [reflexivity|].
  cbn [flat_map app swap_pairs]. now rewrite IH.
Qed.

(** X18: the sign of the step size does not matter for the set of
    calculations: the workflow for -step_size has the same optimization and
    phonon nodes and the same name as the one for step_size, and its
    displaced nodes are the very nodes of that one, the two of each mode in
    swapped order. *)
Theorem raman_step_sign `{Pymatgen} (structure : Structure) (modes : option (list Z))
    (step_size : Q) (vasp_cmd : string) (db_file : option string) :
  let wf := get_wf_raman_spectra structure modes step_size vasp_cmd db_file in
  let wf' := get_wf_raman_spectra structure modes (- step_size)%Q vasp_cmd db_file in
  nodes_of Optimize wf' = nodes_of Optimize wf
  /\ nodes_of Phonon wf' = nodes_of Phonon wf
  /\ nodes_of DisplacedStatic wf' = swap_pairs (nodes_of DisplacedStatic wf)
  /\ wf_name wf' = wf_name wf.
Proof.
  intros wf wf'.
  destruct (nodes_of_kinds structure step_size vasp_cmd db_file modes)
    as (Ho & Hp & Hd & _).
  destruct (nodes_of_kinds structure (- step_size)%Q vasp_cmd db_file modes)
    as (Ho' & Hp' & Hd' & _).
  fold wf in Ho, Hp, Hd. fold wf' in Ho', Hp', Hd'.
  rewrite Ho, Hp, Hd, Ho', Hp', Hd'. rewrite Qopp_opp.
  repeat split. symmetry. apply swap_pairs_flat_map.
Qed.

(** The call on a structure without sites and on one silicon atom. *)
Example raman_call_examples :
  get_wf_raman_spectra_call (H := toy_pymatgen) no_sites (Some [])
    default_step_size default_vasp_cmd None = Err ValueError
  /\ get_wf_raman_spectra_call (H := toy_pymatgen) Si1 (Some [])
       default_step_size default_vasp_cmd None
     = Ok (get_wf_raman_spectra (H := toy_pymatgen) Si1 None
             default_step_size default_vasp_cmd None).
Proof. split; reflexivity. Qed.
